(** * extract_pdf_text.py: a shallow embedding and its properties

    The script opens one PDF, asks PyPDF2 for the text of every page,
    concatenates the pages that are not blank, and prints a JSON record.
    The PDF library and the file system are outside the script: they are
    taken as an arbitrary [Library] of oracles whose calls either yield a
    value or raise.  Python strings are sequences of Unicode code points. *)

From Stdlib Require Import List NArith ZArith Bool Lia String Ascii DecimalString.
Import ListNotations.

(** ** Python strings *)

Module PyStr.

(** A [str] is a sequence of code points. *)
Definition str := list N.

(** A literal of the source, given by its ASCII characters. *)
Definition lit (s : string) : str := map N_of_ascii (list_ascii_of_string s).

(** [len(s)] *)
Definition len (s : str) : Z := Z.of_nat (List.length s).

(** [bool(s)]: a string is true when it is not empty. *)
Definition truthy (s : str) : bool :=
  match s with
  | [] => false
  | _ :: _ => true
  end.

(** [c.isspace()] for one code point, CPython's table: the ASCII
    whitespace and separators, NEL, NBSP and the Unicode spaces. *)
Definition isspace (c : N) : bool :=
  (((9 <=? c) && (c <=? 13)) || ((28 <=? c) && (c <=? 32))
   || (c =? 133) || (c =? 160) || (c =? 5760)
   || ((8192 <=? c) && (c <=? 8202))
   || (c =? 8232) || (c =? 8233) || (c =? 8239) || (c =? 8287)
   || (c =? 12288))%N.

(** [s.lstrip()]: drop the leading whitespace. *)
Fixpoint lstrip (s : str) : str :=
  match s with
  | [] => []
  | c :: s' => if isspace c then lstrip s' else s
  end.

(** [s.rstrip()]: drop the trailing whitespace. *)
Definition rstrip (s : str) : str := rev (lstrip (rev s)).

(** [s.strip()]: the left end is found first, then the right end. *)
Definition strip (s : str) : str := rstrip (lstrip s).

(** [sep.join(parts)] *)
Fixpoint join (sep : str) (parts : list str) : str :=
  match parts with
  | [] => []
  | [p] => p
  | p :: rest => p ++ sep ++ join sep rest
  end.

(** A string with no character outside whitespace (the empty one too). *)
Definition blank (s : str) : bool := forallb isspace s.

End PyStr.
Import PyStr.

(** ** Values, exceptions and calls that may raise *)

(** What [page.extract_text()] can hand back: a string, or no string. *)
Inductive pyval : Type :=
| PStr (s : str)
| PNone.

(** A raised exception object: whether it is an instance of [Exception]
    (errors are; [KeyboardInterrupt], [SystemExit] and [GeneratorExit] are
    not) and what [str(error)] gives. *)
Record py_exc : Type := Exc {
  isinstance_Exception : bool;
  exc_str : str
}.

(** The outcome of evaluating an expression. *)
Inductive outcome (A : Type) : Type :=
| Ok (a : A)
| Raise (e : py_exc).
Arguments Ok {A} a.
Arguments Raise {A} e.

Definition bind {A B : Type} (m : outcome A) (k : A -> outcome B) : outcome B :=
  match m with
  | Ok a => k a
  | Raise e => Raise e
  end.

Declare Scope py_scope.
Delimit Scope py_scope with py.
Notation "x <- m ;; k" := (bind m (fun x => k))
  (at level 100, m at next level, right associativity) : py_scope.
Local Open Scope py_scope.

(** The outcome of a call of a function with a [try] block: it returns, or
    an exception its handler does not match leaves the function. *)
Inductive call_result (A : Type) : Type :=
| Returned (a : A)
| Propagated (e : py_exc).
Arguments Returned {A} a.
Arguments Propagated {A} e.

(** [try: body  except Exception as error: handler(error)] *)
Definition try_except_Exception {A : Type}
    (body : outcome A) (handler : py_exc -> A) : call_result A :=
  match body with
  | Ok a => Returned a
  | Raise error =>
      if isinstance_Exception error then Returned (handler error)
      else Propagated error
  end.

(** [AttributeError] of [None.strip]. *)
Definition AttributeError_strip : py_exc :=
  Exc true (lit "'NoneType' object has no attribute 'strip'").

(** [v.strip()] on a value: defined on strings only. *)
Definition strip_method (v : pyval) : outcome str :=
  match v with
  | PStr s => Ok (strip s)
  | PNone => Raise AttributeError_strip
  end.

(** The separator ["\n\n"]. *)
Definition newline2 : str := [10; 10]%N.

(** [TypeError] of [None + "..."]. *)
Definition TypeError_add : py_exc :=
  Exc true (lit "unsupported operand type(s) for +: 'NoneType' and 'str'").

(** [v + s] for a string [s]: concatenation, defined on strings only. *)
Definition add_str (v : pyval) (s : str) : outcome str :=
  match v with
  | PStr t => Ok (t ++ s)
  | PNone => Raise TypeError_add
  end.

(** ** The result record: a dict, in insertion order *)

Inductive value : Type :=
| VBool (b : bool)
| VInt (z : Z)
| VStr (s : str).

Definition dict := list (str * value).

Definition str_eqb (a b : str) : bool :=
  if list_eq_dec N.eq_dec a b then true else false.

(** [d.get(k)] *)
Fixpoint get (d : dict) (k : str) : option value :=
  match d with
  | [] => None
  | (k', v) :: d' => if str_eqb k' k then Some v else get d' k
  end.

Definition keys (d : dict) : list str := map fst d.

(** ** The library: [open] and PyPDF2 *)

(** A page object. *)
Record Page : Type := {
  extract_text : outcome pyval
}.

(** A [PdfReader] object: [len(reader.pages)] and [reader.pages[i]]. *)
Record Reader : Type := {
  pages_len : outcome nat;
  pages_getitem : nat -> outcome Page
}.

(** The world the script runs in.  A handle opened for reading is closed
    by the [with] block on every exit path; closing it does not raise. *)
Record Library : Type := {
  File : Type;
  open_rb : str -> outcome File;
  PdfReader : File -> outcome Reader
}.

(** ** extract_text_from_pdf *)

(** The body of the [for page_num in range(total_pages)] loop, [todo]
    iterations from [page_num] on, threading [extracted_text]. *)
Fixpoint pages_loop (reader : Reader) (todo page_num : nat)
    (extracted_text : str) : outcome str :=
  match todo with
  | O => Ok extracted_text
  | S todo' =>
      page <- pages_getitem reader page_num ;;
      page_text <- extract_text page ;;
      stripped <- strip_method page_text ;;
      if truthy stripped
      then
        piece <- add_str page_text newline2 ;;
        pages_loop reader todo' (S page_num) (extracted_text ++ piece)
      else pages_loop reader todo' (S page_num) extracted_text
  end.

Definition success_dict (extracted_text : str) (total_pages : nat) : dict :=
  [ (lit "success", VBool true);
    (lit "text", VStr extracted_text);
    (lit "pages", VInt (Z.of_nat total_pages));
    (lit "length", VInt (len extracted_text)) ].

Definition failure_dict (message : str) : dict :=
  [ (lit "success", VBool false);
    (lit "error", VStr message);
    (lit "text", VStr []);
    (lit "pages", VInt 0);
    (lit "length", VInt 0) ].

(** The [try] block. *)
Definition extract_body (lib : Library) (pdf_path : str) : outcome dict :=
  file <- open_rb lib pdf_path ;;
  reader <- PdfReader lib file ;;
  total_pages <- pages_len reader ;;
  extracted_text <- pages_loop reader total_pages 0 [] ;;
  Ok (success_dict (strip extracted_text) total_pages).

Definition extract_text_from_pdf (lib : Library) (pdf_path : str)
    : call_result dict :=
  try_except_Exception (extract_body lib pdf_path)
    (fun error => failure_dict (exc_str error)).

(** ** json.dumps and the command line *)

Module Json.

(** One lowercase hexadecimal digit. *)
Definition hexdigit (n : N) : N :=
  (if n <? 10 then 48 + n else 87 + n)%N.

(** ['{0:04x}'.format(n)] for [n < 0x10000]. *)
Definition hex4 (n : N) : str :=
  [ hexdigit ((n / 4096) mod 16); hexdigit ((n / 256) mod 16);
    hexdigit ((n / 16) mod 16); hexdigit (n mod 16) ]%N.

(** [\uXXXX] *)
Definition u_escape (n : N) : str := (92 :: 117 :: hex4 n)%N.

(** The replacement of one character under [ensure_ascii]: the short
    escapes, the printable ASCII range as it is, and [\uXXXX] for the
    rest, as a surrogate pair above the basic plane. *)
Definition escape_char (c : N) : str :=
  (if c =? 34 then [92; 34]
   else if c =? 92 then [92; 92]
   else if c =? 10 then [92; 110]
   else if c =? 13 then [92; 114]
   else if c =? 9 then [92; 116]
   else if c =? 8 then [92; 98]
   else if c =? 12 then [92; 102]
   else if (32 <=? c) && (c <=? 126) then [c]
   else if c <? 65536 then u_escape c
   else
     let n := c - 65536 in
     u_escape (N.lor 55296 (N.land (N.shiftr n 10) 1023))
     ++ u_escape (N.lor 56320 (N.land n 1023)))%N.

Definition encode_str (s : str) : str :=
  (34 :: flat_map escape_char s ++ [34])%N.

Definition encode_int (z : Z) : str :=
  lit (NilZero.string_of_int (Z.to_int z)).

Definition encode_value (v : value) : str :=
  match v with
  | VBool true => lit "true"
  | VBool false => lit "false"
  | VInt z => encode_int z
  | VStr s => encode_str s
  end.

Definition encode_item (kv : str * value) : str :=
  encode_str (fst kv) ++ lit ": " ++ encode_value (snd kv).

(** [json.dumps(d)] with the default separators. *)
Definition dumps (d : dict) : str :=
  lit "{" ++ join (lit ", ") (map encode_item d) ++ lit "}".

End Json.

(** How the process ends: normally with what it wrote to standard output
    and its status code, or on an exception nobody caught. *)
Inductive process : Type :=
| Exit (stdout : str) (status : Z)
| Uncaught (stdout : str) (e : py_exc).

(** What [print(s)] writes. *)
Definition print (s : str) : str := s ++ [10%N].

Definition usage_dict : dict :=
  [ (lit "success", VBool false);
    (lit "error", VStr (lit "Usage: python extract_pdf_text.py <pdf_path>"));
    (lit "text", VStr []);
    (lit "pages", VInt 0);
    (lit "length", VInt 0) ].

(** The [__main__] block, on [sys.argv]. *)
Definition main (lib : Library) (argv : list str) : process :=
  if negb (Nat.eqb (List.length argv) 2)
  then Exit (print (Json.dumps usage_dict)) 1
  else
    let pdf_path := nth 1 argv [] in
    match extract_text_from_pdf lib pdf_path with
    | Returned result => Exit (print (Json.dumps result)) 0
    | Propagated e => Uncaught [] e
    end.

(** ** A library for concrete runs

    A file is the list of what its pages give; a path names a file when
    the table has it. *)

Module Demo.

Definition FileNotFoundError (path : str) : py_exc :=
  Exc true (lit "[Errno 2] No such file or directory: '" ++ path ++ lit "'").

Definition PdfReadError : py_exc := Exc true (lit "EOF marker not found").

Definition KeyboardInterrupt : py_exc := Exc false [].

(** A stored file: not a PDF, or the outcomes of its pages. *)
Inductive file : Type :=
| Garbage
| Pdf (pages : list (outcome pyval)).

Definition reader_of (pages : list (outcome pyval)) : Reader :=
  {| pages_len := Ok (List.length pages);
     pages_getitem := fun i =>
       match nth_error pages i with
       | Some o => Ok {| extract_text := o |}
       | None => Raise (Exc true (lit "sequence index out of range"))
       end |}.

Fixpoint lookup (fs : list (str * file)) (path : str) : outcome file :=
  match fs with
  | [] => Raise (FileNotFoundError path)
  | (p, f) :: fs' => if str_eqb p path then Ok f else lookup fs' path
  end.

Definition library (fs : list (str * file)) : Library :=
  {| File := file;
     open_rb := lookup fs;
     PdfReader := fun f =>
       match f with
       | Garbage => Raise PdfReadError
       | Pdf pages => Ok (reader_of pages)
       end |}.

Definition ab_pdf : file := Pdf [Ok (PStr (lit "A")); Ok (PStr (lit "B"))].
Definition blank_pdf : file := Pdf [Ok (PStr (lit "  ")); Ok (PStr [])].
Definition mixed_pdf : file :=
  Pdf [Ok (PStr (lit " A ")); Ok (PStr (lit " ")); Ok (PStr (lit "B"))].
Definition none_pdf : file := Pdf [Ok (PStr (lit "A")); Ok PNone].
Definition broken_pdf : file :=
  Pdf [Ok (PStr (lit "A")); Raise PdfReadError; Ok (PStr (lit "B"))].
Definition interrupted_pdf : file :=
  Pdf [Ok (PStr (lit "A")); Raise KeyboardInterrupt].

Definition fs : list (str * file) :=
  [ (lit "ab.pdf", ab_pdf); (lit "blank.pdf", blank_pdf);
    (lit "mixed.pdf", mixed_pdf); (lit "none.pdf", none_pdf);
    (lit "broken.pdf", broken_pdf); (lit "notes.txt", Garbage);
    (lit "interrupted.pdf", interrupted_pdf) ].

Definition lib : Library := library fs.

End Demo.

(** ** What the specification says of the text

    The per-page texts that are non-empty after trimming, joined by a blank
    line, and the whole trimmed. *)

Definition kept (ts : list str) : list str :=
  filter (fun t => truthy (strip t)) ts.

Definition spec_text (ts : list str) : str :=
  strip (join newline2 (kept ts)).

(** What the loop has accumulated after pages with texts [ts]. *)
Definition appended (ts : list str) : str :=
  flat_map (fun t => if truthy (strip t) then t ++ newline2 else []) ts.

(** ** Observations of a run

    What the library answers for a path, stated apart from the function:
    the text of page [i], a document all of whose pages give text, and the
    first exception of a run. *)

(** [reader.pages[i].extract_text()] *)
Definition page_text_at (reader : Reader) (i : nat) : outcome pyval :=
  page <- pages_getitem reader i ;; extract_text page.

(** The answers for the [n] pages from [from] on. *)
Definition page_texts (reader : Reader) (from n : nat) : list (outcome pyval) :=
  map (page_text_at reader) (seq from n).

(** Pages [from], [from + 1], ... give the strings [ts], in this order. *)
Definition pages_yield (reader : Reader) (from : nat) (ts : list str) : Prop :=
  page_texts reader from (List.length ts) = map (fun t => Ok (PStr t)) ts.

(** Processing page [i] raises [e]: fetching the page or extracting its
    text raises, or the page gives no string and trimming it raises. *)
Inductive page_fault (reader : Reader) (i : nat) (e : py_exc) : Prop :=
| fault_raised : page_text_at reader i = Raise e -> page_fault reader i e
| fault_no_string :
    page_text_at reader i = Ok PNone -> e = AttributeError_strip ->
    page_fault reader i e.

(** The path opens and parses to [reader]. *)
Definition loads (lib : Library) (pdf_path : str) (reader : Reader) : Prop :=
  exists file : File lib,
    open_rb lib pdf_path = Ok file /\ PdfReader lib file = Ok reader.

(** A valid document: it loads, reports as many pages as [ts] has texts,
    and its pages give the texts [ts]. *)
Definition valid_pdf (lib : Library) (pdf_path : str) (reader : Reader)
    (ts : list str) : Prop :=
  loads lib pdf_path reader /\
  pages_len reader = Ok (List.length ts) /\
  pages_yield reader 0 ts.

(** The first exception raised while extracting from [pdf_path], by stage. *)
Inductive faults (lib : Library) (pdf_path : str) (e : py_exc) : Prop :=
| fault_open :
    open_rb lib pdf_path = Raise e -> faults lib pdf_path e
| fault_parse (file : File lib) :
    open_rb lib pdf_path = Ok file -> PdfReader lib file = Raise e ->
    faults lib pdf_path e
| fault_count (reader : Reader) :
    loads lib pdf_path reader -> pages_len reader = Raise e ->
    faults lib pdf_path e
| fault_page (reader : Reader) (total_pages : nat) (ts : list str) :
    loads lib pdf_path reader -> pages_len reader = Ok total_pages ->
    List.length ts < total_pages ->
    pages_yield reader 0 ts ->
    page_fault reader (List.length ts) e ->
    faults lib pdf_path e.

(** Two readers answer alike: same page count, same text for each page
    within it. *)
Definition same_pages (r1 r2 : Reader) : Prop :=
  pages_len r1 = pages_len r2 /\
  forall total_pages,
    pages_len r1 = Ok total_pages ->
    page_texts r1 0 total_pages = page_texts r2 0 total_pages.

(** Two runs on one path get the same answers from the library. *)
Definition same_answers (lib1 lib2 : Library) (pdf_path : str) : Prop :=
  match open_rb lib1 pdf_path, open_rb lib2 pdf_path with
  | Ok file1, Ok file2 =>
      match PdfReader lib1 file1, PdfReader lib2 file2 with
      | Ok r1, Ok r2 => same_pages r1 r2
      | Raise e1, Raise e2 => e1 = e2
      | _, _ => False
      end
  | Raise e1, Raise e2 => e1 = e2
  | _, _ => False
  end.

(** A field of the record a call returned. *)
Definition field (r : call_result dict) (k : string) : option value :=
  match r with
  | Returned d => get d (lit k)
  | Propagated _ => None
  end.

(** The line the specification gives for a usage error. *)
Definition quoted (s : string) : str := (34 :: lit s ++ [34])%N.

Definition usage_error_json : str :=
  lit "{" ++ quoted "success" ++ lit ": false, "
  ++ quoted "error" ++ lit ": "
  ++ quoted "Usage: python extract_pdf_text.py <pdf_path>" ++ lit ", "
  ++ quoted "text" ++ lit ": " ++ quoted EmptyString ++ lit ", "
  ++ quoted "pages" ++ lit ": 0, "
  ++ quoted "length" ++ lit ": 0}".

(** The printable ASCII range, which a line of output stays within. *)
Definition printable (c : N) : bool := ((32 <=? c) && (c <=? 126))%N.

(** Whether a string begins, or ends, with a whitespace character. *)
Definition head_space (s : str) : bool :=
  match s with
  | [] => false
  | c :: _ => isspace c
  end.

Definition last_space (s : str) : bool := head_space (rev s).

(** * Properties of the string operations *)

Section Strings.

Lemma blank_app (a b : str) : blank (a ++ b) = blank a && blank b.
Proof. apply forallb_app. Qed.

Lemma blank_rev (s : str) : blank (rev s) = blank s.
Proof.
  induction s as [|c s IH]; simpl; [reflexivity|].
  rewrite blank_app, IH. simpl. rewrite andb_true_r. apply andb_comm.
Qed.

Lemma lstrip_blank (s : str) : blank s = true -> lstrip s = [].
Proof.
  induction s as [|c s IH]; simpl; [reflexivity|].
  destruct (isspace c); simpl; [exact IH | discriminate].
Qed.

Lemma lstrip_nil_blank (s : str) : lstrip s = [] -> blank s = true.
Proof.
  induction s as [|c s IH]; simpl; [reflexivity|].
  destruct (isspace c); simpl; [exact IH | discriminate].
Qed.

Lemma blank_lstrip (s : str) : blank (lstrip s) = blank s.
Proof.
  induction s as [|c s IH]; simpl; [reflexivity|].
  destruct (isspace c) eqn:E; simpl; [exact IH | now rewrite E].
Qed.

Lemma lstrip_app_blank (w s : str) :
  blank w = true -> lstrip (w ++ s) = lstrip s.
Proof.
  induction w as [|c w IH]; simpl; [reflexivity|].
  destruct (isspace c); simpl; [exact IH | discriminate].
Qed.

Lemma lstrip_app_nonblank (s w : str) :
  blank s = false -> lstrip (s ++ w) = lstrip s ++ w.
Proof.
  induction s as [|c s IH]; simpl; [discriminate|].
  destruct (isspace c); simpl; [exact IH | reflexivity].
Qed.

Lemma rstrip_app_blank (s w : str) :
  blank w = true -> rstrip (s ++ w) = rstrip s.
Proof.
  intros Hw. unfold rstrip. rewrite rev_app_distr.
  rewrite lstrip_app_blank; [reflexivity | now rewrite blank_rev].
Qed.

Lemma rstrip_blank (s : str) : blank s = true -> rstrip s = [].
Proof.
  intros Hs. unfold rstrip. rewrite lstrip_blank; [reflexivity|].
  now rewrite blank_rev.
Qed.

(** Trailing whitespace does not survive [strip]. *)
Lemma strip_app_blank (s w : str) :
  blank w = true -> strip (s ++ w) = strip s.
Proof.
  intros Hw. unfold strip. destruct (blank s) eqn:Hs.
  - rewrite lstrip_app_blank by exact Hs.
    rewrite (lstrip_blank w Hw), (lstrip_blank s Hs). reflexivity.
  - rewrite lstrip_app_nonblank by exact Hs. now apply rstrip_app_blank.
Qed.

Lemma strip_blank (s : str) : blank s = true -> strip s = [].
Proof. intros Hs. unfold strip. now rewrite lstrip_blank. Qed.

(** A string is non-empty after trimming exactly when it is not blank. *)
Lemma truthy_strip (s : str) : truthy (strip s) = negb (blank s).
Proof.
  destruct (blank s) eqn:Hs; simpl.
  - now rewrite strip_blank.
  - unfold strip, rstrip.
    destruct (lstrip (rev (lstrip s))) as [|c r] eqn:E.
    + apply lstrip_nil_blank in E.
      rewrite blank_rev, blank_lstrip in E. congruence.
    + simpl. destruct (rev r ++ [c]) eqn:E'; [|reflexivity].
      now apply app_eq_nil in E' as [_ E'].
Qed.

Lemma blank_newline2 : blank newline2 = true.
Proof. reflexivity. Qed.

Lemma appended_cons (t : str) (ts : list str) :
  appended (t :: ts) =
  (if truthy (strip t) then t ++ newline2 else []) ++ appended ts.
Proof. reflexivity. Qed.

Lemma appended_kept (ts : list str) :
  appended ts = List.concat (map (fun t => t ++ newline2) (kept ts)).
Proof.
  induction ts as [|t ts IH]; [reflexivity|].
  rewrite appended_cons. unfold kept in *. simpl.
  destruct (truthy (strip t)); simpl; now rewrite IH.
Qed.

Lemma concat_terminated_join (l : list str) :
  l <> [] ->
  List.concat (map (fun t => t ++ newline2) l) = join newline2 l ++ newline2.
Proof.
  induction l as [|t l IH]; [congruence|]. intros _.
  destruct l as [|t' l].
  - simpl. now rewrite app_nil_r.
  - change (join newline2 (t :: t' :: l))
      with (t ++ newline2 ++ join newline2 (t' :: l)).
    change (List.concat (map (fun t => t ++ newline2) (t :: t' :: l)))
      with ((t ++ newline2)
            ++ List.concat (map (fun t => t ++ newline2) (t' :: l))).
    rewrite IH by discriminate. now rewrite <- !app_assoc.
Qed.

(** Trimming what the loop accumulated gives the text of the
    specification: the separator after the last kept page is trimmed. *)
Lemma strip_appended (ts : list str) : strip (appended ts) = spec_text ts.
Proof.
  unfold spec_text. rewrite appended_kept.
  destruct (kept ts) as [|t l] eqn:E; [reflexivity|].
  rewrite concat_terminated_join by discriminate.
  apply strip_app_blank, blank_newline2.
Qed.

Lemma kept_all_blank (ts : list str) :
  (forall t, In t ts -> blank t = true) -> kept ts = [].
Proof.
  induction ts as [|t ts IH]; intros H; [reflexivity|].
  unfold kept in *. simpl. rewrite truthy_strip, (H t (or_introl eq_refl)).
  simpl. apply IH. intros t' Ht'. apply H. now right.
Qed.

End Strings.

(** * The page loop *)

Section Loop.

Variable reader : Reader.

Lemma pages_yield_nil (from : nat) : pages_yield reader from [].
Proof. reflexivity. Qed.

Lemma pages_yield_cons (from : nat) (t : str) (ts : list str) :
  pages_yield reader from (t :: ts) <->
  page_text_at reader from = Ok (PStr t) /\ pages_yield reader (S from) ts.
Proof.
  unfold pages_yield, page_texts. simpl. split.
  - intros H. injection H as H1 H2. now split.
  - intros [H1 H2]. now rewrite H1, H2.
Qed.

(** One iteration on a page that gives a string. *)
Lemma loop_step_text (todo i : nat) (acc t : str) :
  page_text_at reader i = Ok (PStr t) ->
  pages_loop reader (S todo) i acc =
  pages_loop reader todo (S i)
    (acc ++ (if truthy (strip t) then t ++ newline2 else [])).
Proof.
  unfold page_text_at. simpl.
  destruct (pages_getitem reader i) as [page|e]; simpl; [|discriminate].
  intros ->. simpl. destruct (truthy (strip t)); [reflexivity|].
  now rewrite app_nil_r.
Qed.

(** One iteration on a page that faults ends the loop. *)
Lemma loop_step_fault (todo i : nat) (acc : str) (e : py_exc) :
  page_fault reader i e -> pages_loop reader (S todo) i acc = Raise e.
Proof.
  intros [H | H ->]; revert H; unfold page_text_at; simpl;
    destruct (pages_getitem reader i) as [page|e']; simpl;
    try discriminate.
  - (* extract_text raised *) intros ->. reflexivity.
  - (* pages[i] raised *) congruence.
  - (* no string: strip raises *) intros ->. reflexivity.
Qed.

(** Every page answers with a string, with no string, or raises. *)
Lemma page_text_at_cases (i : nat) :
  (exists t, page_text_at reader i = Ok (PStr t)) \/
  (exists e, page_fault reader i e).
Proof.
  destruct (page_text_at reader i) as [[t|]|e] eqn:E.
  - left. now exists t.
  - right. exists AttributeError_strip. now apply fault_no_string.
  - right. exists e. now apply fault_raised.
Qed.

(** A page cannot both give a string and fault, and faults in one way. *)
Lemma page_fault_not_text (i : nat) (t : str) (e : py_exc) :
  page_text_at reader i = Ok (PStr t) -> ~ page_fault reader i e.
Proof. intros H [H' | H' _]; congruence. Qed.

(** The loop over pages that all give strings accumulates [appended]. *)
Lemma pages_loop_ok (ts : list str) :
  forall (from : nat) (acc : str),
    pages_yield reader from ts ->
    pages_loop reader (List.length ts) from acc = Ok (acc ++ appended ts).
Proof.
  induction ts as [|t ts IH]; intros from acc H.
  - simpl. now rewrite app_nil_r.
  - apply pages_yield_cons in H as [Ht Hts].
    change (List.length (t :: ts)) with (S (List.length ts)).
    rewrite (loop_step_text _ _ acc _ Ht), (IH _ _ Hts), appended_cons.
    now rewrite app_assoc.
Qed.

(** A fault on the page after [ts] ends the loop with that exception,
    whatever was accumulated and however many pages remain. *)
Lemma pages_loop_fault (ts : list str) :
  forall (from more : nat) (acc : str) (e : py_exc),
    pages_yield reader from ts ->
    page_fault reader (from + List.length ts) e ->
    pages_loop reader (List.length ts + S more) from acc = Raise e.
Proof.
  induction ts as [|t ts IH]; intros from more acc e H Hf.
  - simpl in Hf. rewrite Nat.add_0_r in Hf. now apply loop_step_fault.
  - apply pages_yield_cons in H as [Ht Hts].
    change (List.length (t :: ts) + S more)
      with (S (List.length ts + S more)).
    rewrite (loop_step_text _ _ acc _ Ht).
    apply IH; [exact Hts|].
    simpl in Hf. now rewrite Nat.add_succ_r in Hf.
Qed.

(** Any run of the loop is of one of these two kinds. *)
Lemma pages_loop_cases (todo : nat) :
  forall from : nat,
    (exists ts, List.length ts = todo /\ pages_yield reader from ts) \/
    (exists ts e, List.length ts < todo /\ pages_yield reader from ts /\
                  page_fault reader (from + List.length ts) e).
Proof.
  induction todo as [|todo IH]; intros from.
  - left. exists []. split; [reflexivity | apply pages_yield_nil].
  - destruct (page_text_at_cases from) as [[t Ht] | [e He]].
    + destruct (IH (S from)) as [[ts [Hl Hy]] | [ts [e [Hl [Hy Hf]]]]].
      * left. exists (t :: ts). split; [simpl; now rewrite Hl|].
        now apply pages_yield_cons.
      * right. exists (t :: ts), e. split; [simpl; lia|].
        split; [now apply pages_yield_cons|].
        simpl. now rewrite Nat.add_succ_r.
    + right. exists [], e. split; [simpl; lia|].
      split; [apply pages_yield_nil|]. simpl. now rewrite Nat.add_0_r.
Qed.

End Loop.

(** * The function as a whole *)

Section Extract.

Variable lib : Library.
Variable pdf_path : str.

Lemma extract_body_ok (reader : Reader) (ts : list str) :
  valid_pdf lib pdf_path reader ts ->
  extract_body lib pdf_path =
  Ok (success_dict (spec_text ts) (List.length ts)).
Proof.
  intros [[file [Ho Hp]] [Hn Hy]]. unfold extract_body.
  rewrite Ho. simpl. rewrite Hp. simpl. rewrite Hn. simpl.
  rewrite (pages_loop_ok reader ts 0 [] Hy). simpl. now rewrite strip_appended.
Qed.

Lemma extract_body_fault (e : py_exc) :
  faults lib pdf_path e -> extract_body lib pdf_path = Raise e.
Proof.
  unfold extract_body.
  intros [Ho | file Ho Hp | reader [file [Ho Hp]] Hn
          | reader total_pages ts [file [Ho Hp]] Hn Hlt Hy Hf].
  - now rewrite Ho.
  - rewrite Ho. simpl. now rewrite Hp.
  - rewrite Ho. simpl. rewrite Hp. simpl. now rewrite Hn.
  - rewrite Ho. simpl. rewrite Hp. simpl. rewrite Hn. simpl.
    replace total_pages
      with (List.length ts + S (total_pages - S (List.length ts))) by lia.
    now rewrite (pages_loop_fault reader ts 0 _ [] e Hy Hf).
Qed.

(** Every run either extracts from a valid document or has a first fault. *)
Lemma extract_body_cases :
  (exists reader ts, valid_pdf lib pdf_path reader ts) \/
  (exists e, faults lib pdf_path e).
Proof.
  destruct (open_rb lib pdf_path) as [file|e] eqn:Ho;
    [| right; exists e; now apply fault_open].
  destruct (PdfReader lib file) as [reader|e] eqn:Hp;
    [| right; exists e; now apply fault_parse with file].
  assert (Hl : loads lib pdf_path reader) by (now exists file).
  destruct (pages_len reader) as [total_pages|e] eqn:Hn;
    [| right; exists e; now apply fault_count with reader].
  destruct (pages_loop_cases reader total_pages 0)
    as [[ts [Hlen Hy]] | [ts [e [Hlen [Hy Hf]]]]].
  - left. exists reader, ts. repeat split; try assumption. now rewrite Hlen.
  - right. exists e. now apply fault_page with reader total_pages ts.
Qed.

Lemma extract_body_raise_inv (e : py_exc) :
  extract_body lib pdf_path = Raise e -> faults lib pdf_path e.
Proof.
  intros H. destruct extract_body_cases as [[reader [ts Hv]] | [e' Hf]].
  - rewrite (extract_body_ok _ _ Hv) in H. discriminate.
  - rewrite (extract_body_fault _ Hf) in H. now injection H as <-.
Qed.

Lemma extract_body_ok_inv (result : dict) :
  extract_body lib pdf_path = Ok result ->
  exists reader ts,
    valid_pdf lib pdf_path reader ts /\
    result = success_dict (spec_text ts) (List.length ts).
Proof.
  intros H. destruct extract_body_cases as [[reader [ts Hv]] | [e' Hf]].
  - exists reader, ts. split; [exact Hv|].
    rewrite (extract_body_ok _ _ Hv) in H. now injection H as <-.
  - rewrite (extract_body_fault _ Hf) in H. discriminate.
Qed.

(** A valid document gives the success record. *)
Lemma extract_valid (reader : Reader) (ts : list str) :
  valid_pdf lib pdf_path reader ts ->
  extract_text_from_pdf lib pdf_path =
  Returned (success_dict (spec_text ts) (List.length ts)).
Proof.
  intros Hv. unfold extract_text_from_pdf. now rewrite (extract_body_ok _ _ Hv).
Qed.

(** An error of the run gives the failure record with its message. *)
Lemma extract_fault (e : py_exc) :
  faults lib pdf_path e -> isinstance_Exception e = true ->
  extract_text_from_pdf lib pdf_path = Returned (failure_dict (exc_str e)).
Proof.
  intros Hf He. unfold extract_text_from_pdf.
  rewrite (extract_body_fault _ Hf). simpl. now rewrite He.
Qed.

(** [except Exception] leaves what is not an [Exception] to the caller. *)
Lemma extract_not_caught (e : py_exc) :
  faults lib pdf_path e -> isinstance_Exception e = false ->
  extract_text_from_pdf lib pdf_path = Propagated e.
Proof.
  intros Hf He. unfold extract_text_from_pdf.
  rewrite (extract_body_fault _ Hf). simpl. now rewrite He.
Qed.

(** What a returned record can be. *)
Lemma extract_returned_inv (result : dict) :
  extract_text_from_pdf lib pdf_path = Returned result ->
  (exists reader ts,
     valid_pdf lib pdf_path reader ts /\
     result = success_dict (spec_text ts) (List.length ts)) \/
  (exists e,
     faults lib pdf_path e /\ isinstance_Exception e = true /\
     result = failure_dict (exc_str e)).
Proof.
  unfold extract_text_from_pdf, try_except_Exception.
  destruct (extract_body lib pdf_path) as [d|e] eqn:E.
  - intros H. injection H as <-. left. now apply extract_body_ok_inv.
  - destruct (isinstance_Exception e) eqn:He; [|discriminate].
    intros H. injection H as <-. right. exists e.
    repeat split; [now apply extract_body_raise_inv | exact He].
Qed.

Lemma extract_propagated_inv (e : py_exc) :
  extract_text_from_pdf lib pdf_path = Propagated e ->
  faults lib pdf_path e /\ isinstance_Exception e = false.
Proof.
  unfold extract_text_from_pdf, try_except_Exception.
  destruct (extract_body lib pdf_path) as [d|e'] eqn:E; [discriminate|].
  destruct (isinstance_Exception e') eqn:He; [discriminate|].
  intros H. injection H as <-. split; [now apply extract_body_raise_inv|exact He].
Qed.

End Extract.

(** The loop reads a reader only through the texts of its pages. *)
Lemma loop_unfold (reader : Reader) (todo i : nat) (acc : str) :
  pages_loop reader (S todo) i acc =
  match page_text_at reader i with
  | Ok (PStr t) =>
      pages_loop reader todo (S i)
        (acc ++ (if truthy (strip t) then t ++ newline2 else []))
  | Ok PNone => Raise AttributeError_strip
  | Raise e => Raise e
  end.
Proof.
  destruct (page_text_at reader i) as [[t|]|e] eqn:E.
  - now apply loop_step_text.
  - apply loop_step_fault. now apply fault_no_string.
  - apply loop_step_fault. now apply fault_raised.
Qed.

Lemma pages_loop_same_texts (r1 r2 : Reader) (todo : nat) :
  forall (from : nat) (acc : str),
    page_texts r1 from todo = page_texts r2 from todo ->
    pages_loop r1 todo from acc = pages_loop r2 todo from acc.
Proof.
  induction todo as [|todo IH]; intros from acc H; [reflexivity|].
  unfold page_texts in H. simpl in H. injection H as H1 H2.
  rewrite !loop_unfold, <- H1.
  destruct (page_text_at r1 from) as [[t|]|e]; try reflexivity.
  now apply IH.
Qed.

(** Two runs that get the same answers return the same. *)
Lemma extract_same_answers (lib1 lib2 : Library) (pdf_path : str) :
  same_answers lib1 lib2 pdf_path ->
  extract_text_from_pdf lib1 pdf_path = extract_text_from_pdf lib2 pdf_path.
Proof.
  unfold same_answers, extract_text_from_pdf, extract_body.
  destruct (open_rb lib1 pdf_path) as [f1|e1],
           (open_rb lib2 pdf_path) as [f2|e2]; simpl;
    try contradiction; [|now intros ->].
  destruct (PdfReader lib1 f1) as [r1|e1], (PdfReader lib2 f2) as [r2|e2];
    simpl; try contradiction; [|now intros ->].
  intros [Hn Hp]. rewrite <- Hn.
  destruct (pages_len r1) as [total_pages|e]; simpl; [|reflexivity].
  now rewrite (pages_loop_same_texts r1 r2 total_pages 0 [] (Hp _ eq_refl)).
Qed.

(** When only errors are raised, the call returns a record. *)
Lemma extract_total_on_errors (lib : Library) (pdf_path : str) :
  (forall e, faults lib pdf_path e -> isinstance_Exception e = true) ->
  exists result, extract_text_from_pdf lib pdf_path = Returned result.
Proof.
  intros H.
  destruct (extract_text_from_pdf lib pdf_path) as [result|e] eqn:E.
  - now exists result.
  - apply extract_propagated_inv in E as [Hf He].
    rewrite (H e Hf) in He. discriminate.
Qed.

(** The keys of the two records. *)
Lemma keys_success_dict (text : str) (total_pages : nat) :
  keys (success_dict text total_pages) =
  [lit "success"; lit "text"; lit "pages"; lit "length"].
Proof. reflexivity. Qed.

Lemma keys_failure_dict (message : str) :
  keys (failure_dict message) =
  [lit "success"; lit "error"; lit "text"; lit "pages"; lit "length"].
Proof. reflexivity. Qed.

Lemma usage_dict_is_failure_dict :
  usage_dict = failure_dict (lit "Usage: python extract_pdf_text.py <pdf_path>").
Proof. reflexivity. Qed.

Lemma dumps_usage_dict : Json.dumps usage_dict = usage_error_json.
Proof. vm_compute. reflexivity. Qed.

(** * The JSON line *)

Section JsonLine.

Lemma printable_app (a b : str) :
  forallb printable (a ++ b) = forallb printable a && forallb printable b.
Proof. apply forallb_app. Qed.

Lemma hexdigit_printable (n : N) :
  (n < 16)%N -> printable (Json.hexdigit n) = true.
Proof.
  intros H. unfold printable, Json.hexdigit.
  destruct (N.ltb_spec n 10); apply andb_true_intro; split;
    apply N.leb_le; lia.
Qed.

Lemma u_escape_printable (n : N) :
  forallb printable (Json.u_escape n) = true.
Proof.
  unfold Json.u_escape, Json.hex4. cbn [forallb].
  rewrite !hexdigit_printable by (apply N.mod_lt; discriminate).
  reflexivity.
Qed.

Lemma escape_char_printable (c : N) :
  forallb printable (Json.escape_char c) = true.
Proof.
  unfold Json.escape_char.
  repeat match goal with
         | |- context [N.eqb c ?k] => destruct (N.eqb c k); [reflexivity|]
         end.
  destruct ((32 <=? c)%N && (c <=? 126)%N) eqn:E.
  - cbn [forallb]. unfold printable. now rewrite E.
  - destruct (c <? 65536)%N.
    + apply u_escape_printable.
    + cbv zeta. rewrite printable_app, !u_escape_printable. reflexivity.
Qed.

Lemma encode_str_printable (s : str) :
  forallb printable (Json.encode_str s) = true.
Proof.
  unfold Json.encode_str. cbn [forallb].
  rewrite printable_app. cbn [forallb]. rewrite andb_true_r.
  change (printable 34) with true. cbn [andb].
  induction s as [|c s IH]; [reflexivity|].
  cbn [flat_map]. now rewrite printable_app, escape_char_printable, IH.
Qed.

Lemma digits_printable (d : Decimal.uint) :
  forallb printable (lit (NilEmpty.string_of_uint d)) = true.
Proof. induction d; cbn; auto. Qed.

Lemma encode_int_printable (z : Z) :
  forallb printable (Json.encode_int z) = true.
Proof.
  unfold Json.encode_int, NilZero.string_of_int, NilZero.string_of_uint.
  destruct (Z.to_int z) as [d|d]; destruct d; cbn;
    try reflexivity; apply digits_printable.
Qed.

Lemma encode_value_printable (v : value) :
  forallb printable (Json.encode_value v) = true.
Proof.
  destruct v as [[|]|z|s]; [reflexivity | reflexivity | |].
  - apply encode_int_printable.
  - apply encode_str_printable.
Qed.

Lemma join_printable (sep : str) (parts : list str) :
  forallb printable sep = true ->
  Forall (fun p => forallb printable p = true) parts ->
  forallb printable (join sep parts) = true.
Proof.
  intros Hsep H. induction H as [|p parts Hp _ IH]; [reflexivity|].
  destruct parts as [|q parts]; [exact Hp|].
  change (join sep (p :: q :: parts)) with (p ++ sep ++ join sep (q :: parts)).
  now rewrite !printable_app, Hp, Hsep, IH.
Qed.

(** [json.dumps] of a record is printable ASCII throughout. *)
Lemma dumps_printable (d : dict) : forallb printable (Json.dumps d) = true.
Proof.
  unfold Json.dumps. rewrite !printable_app.
  rewrite join_printable; [reflexivity | reflexivity |].
  apply Forall_forall. intros p Hp. apply in_map_iff in Hp as [[k v] [<- _]].
  unfold Json.encode_item. cbn [fst snd].
  now rewrite !printable_app, encode_str_printable, encode_value_printable.
Qed.

(** So what [print] writes for it is one line. *)
Lemma dumps_one_line (d : dict) : ~ In 10%N (Json.dumps d).
Proof.
  intros H. pose proof (dumps_printable d) as Hp.
  rewrite forallb_forall in Hp. specialize (Hp _ H). discriminate.
Qed.

End JsonLine.

(** * The claims *)

(** C1. When extraction succeeds on a document whose pages give the texts
    [ts], the text of the result is the concatenation, in page order, of
    exactly the texts that are non-empty after trimming, one blank line
    between consecutive kept texts, the whole trimmed at both ends; a page
    that is empty or whitespace contributes nothing. *)
Theorem text_is_trimmed_join_of_kept_pages
    (lib : Library) (pdf_path : str) (reader : Reader) (ts : list str) :
  valid_pdf lib pdf_path reader ts ->
  field (extract_text_from_pdf lib pdf_path) "success" = Some (VBool true) /\
  field (extract_text_from_pdf lib pdf_path) "text" =
  Some (VStr (strip (join [10; 10]%N
                        (filter (fun t => truthy (strip t)) ts)))).
Proof.
  intros Hv. rewrite (extract_valid _ _ _ _ Hv). split; reflexivity.
Qed.

Lemma text_is_trimmed_join_of_kept_pages_witness :
  valid_pdf Demo.lib (lit "mixed.pdf")
    (Demo.reader_of [Ok (PStr (lit " A ")); Ok (PStr (lit " "));
                     Ok (PStr (lit "B"))])
    [lit " A "; lit " "; lit "B"] /\
  field (extract_text_from_pdf Demo.lib (lit "mixed.pdf")) "text" =
  Some (VStr [65; 32; 10; 10; 66]%N).
Proof.
  assert (Hv : valid_pdf Demo.lib (lit "mixed.pdf")
                 (Demo.reader_of [Ok (PStr (lit " A ")); Ok (PStr (lit " "));
                                  Ok (PStr (lit "B"))])
                 [lit " A "; lit " "; lit "B"]).
  { split; [exists Demo.mixed_pdf; split; reflexivity | split; reflexivity]. }
  split; [exact Hv|].
  exact (proj2 (text_is_trimmed_join_of_kept_pages _ _ _ _ Hv)).
Defined.

(** C2. For a valid document of several pages, one of which has text that
    is not whitespace, the result has success true, pages equal to the
    page count the library reports, and length equal to the number of
    characters of text. *)
Theorem valid_pdf_success_pages_length
    (lib : Library) (pdf_path : str) (reader : Reader) (ts : list str) :
  2 <= List.length ts ->
  (exists t, In t ts /\ blank t = false) ->
  valid_pdf lib pdf_path reader ts ->
  exists (total_pages : nat) (text : str),
    pages_len reader = Ok total_pages /\
    field (extract_text_from_pdf lib pdf_path) "success" = Some (VBool true) /\
    field (extract_text_from_pdf lib pdf_path) "pages" =
      Some (VInt (Z.of_nat total_pages)) /\
    field (extract_text_from_pdf lib pdf_path) "text" = Some (VStr text) /\
    field (extract_text_from_pdf lib pdf_path) "length" =
      Some (VInt (Z.of_nat (List.length text))).
Proof.
  intros _ _ Hv. exists (List.length ts), (spec_text ts).
  rewrite (extract_valid _ _ _ _ Hv).
  destruct Hv as [_ [Hn _]]. repeat split. exact Hn.
Qed.

Lemma valid_pdf_success_pages_length_witness :
  exists (total_pages : nat) (text : str),
    pages_len (Demo.reader_of [Ok (PStr (lit "A")); Ok (PStr (lit "B"))]) =
      Ok total_pages /\
    field (extract_text_from_pdf Demo.lib (lit "ab.pdf")) "success" =
      Some (VBool true) /\
    field (extract_text_from_pdf Demo.lib (lit "ab.pdf")) "pages" =
      Some (VInt (Z.of_nat total_pages)) /\
    field (extract_text_from_pdf Demo.lib (lit "ab.pdf")) "text" =
      Some (VStr text) /\
    field (extract_text_from_pdf Demo.lib (lit "ab.pdf")) "length" =
      Some (VInt (Z.of_nat (List.length text))).
Proof.
  apply (valid_pdf_success_pages_length Demo.lib (lit "ab.pdf")
           (Demo.reader_of [Ok (PStr (lit "A")); Ok (PStr (lit "B"))])
           [lit "A"; lit "B"]).
  - simpl. lia.
  - exists (lit "A"). split; [simpl; now left | reflexivity].
  - split; [exists Demo.ab_pdf; split; reflexivity | split; reflexivity].
Defined.

(** C3. When opening the file, parsing it, counting its pages or
    extracting the text of a page raises an error, the call returns exactly
    the record with success false, the message of the error, empty text,
    zero pages and zero length.  In particular, an error on page N, after
    pages 0..N-1 gave the texts [ts], leaves nothing of [ts] in the result. *)
Theorem error_gives_failure_record
    (lib : Library) (pdf_path : str) (e : py_exc) :
  isinstance_Exception e = true ->
  (faults lib pdf_path e ->
   extract_text_from_pdf lib pdf_path =
   Returned [ (lit "success", VBool false);
              (lit "error", VStr (exc_str e));
              (lit "text", VStr []);
              (lit "pages", VInt 0);
              (lit "length", VInt 0) ]) /\
  (forall (reader : Reader) (total_pages : nat) (ts : list str),
     loads lib pdf_path reader ->
     pages_len reader = Ok total_pages ->
     List.length ts < total_pages ->
     pages_yield reader 0 ts ->
     page_fault reader (List.length ts) e ->
     field (extract_text_from_pdf lib pdf_path) "text" = Some (VStr []) /\
     field (extract_text_from_pdf lib pdf_path) "pages" = Some (VInt 0) /\
     field (extract_text_from_pdf lib pdf_path) "length" = Some (VInt 0)).
Proof.
  intros He. split.
  - intros Hf. now rewrite (extract_fault _ _ _ Hf He).
  - intros reader total_pages ts Hl Hn Hlt Hy Hp.
    rewrite (extract_fault _ _ _
               (fault_page _ _ _ reader total_pages ts Hl Hn Hlt Hy Hp) He).
    repeat split.
Qed.

Lemma error_gives_failure_record_witness :
  isinstance_Exception Demo.PdfReadError = true /\
  faults Demo.lib (lit "broken.pdf") Demo.PdfReadError /\
  extract_text_from_pdf Demo.lib (lit "broken.pdf") =
  Returned [ (lit "success", VBool false);
             (lit "error", VStr (lit "EOF marker not found"));
             (lit "text", VStr []);
             (lit "pages", VInt 0);
             (lit "length", VInt 0) ].
Proof.
  assert (Hf : faults Demo.lib (lit "broken.pdf") Demo.PdfReadError).
  { apply fault_page
      with (reader := Demo.reader_of
                        [Ok (PStr (lit "A")); Raise Demo.PdfReadError;
                         Ok (PStr (lit "B"))])
           (total_pages := 3) (ts := [lit "A"]).
    - exists Demo.broken_pdf. split; reflexivity.
    - reflexivity.
    - simpl. lia.
    - reflexivity.
    - apply fault_raised. reflexivity. }
  split; [reflexivity|]. split; [exact Hf|].
  exact (proj1 (error_gives_failure_record Demo.lib (lit "broken.pdf")
                  Demo.PdfReadError eq_refl) Hf).
Defined.

(** C4. On the command line: with no argument, or with two or more, the
    program prints the usage-error JSON object and exits with status 1;
    with exactly one argument it prints the record that extraction
    returned, success or failure, as one JSON object and exits with
    status 0. *)
Theorem main_usage_and_exit_status
    (lib : Library) (prog : str) (args : list str) :
  (List.length args <> 1 ->
   main lib (prog :: args) = Exit (usage_error_json ++ [10%N]) 1) /\
  (forall pdf_path,
     args = [pdf_path] ->
     (forall e, faults lib pdf_path e -> isinstance_Exception e = true) ->
     exists result,
       extract_text_from_pdf lib pdf_path = Returned result /\
       main lib (prog :: args) = Exit (Json.dumps result ++ [10%N]) 0 /\
       ~ In 10%N (Json.dumps result)).
Proof.
  split.
  - intros Hn. unfold main.
    replace (Nat.eqb (List.length (prog :: args)) 2) with false.
    + simpl negb. cbv iota. unfold print. now rewrite dumps_usage_dict.
    + symmetry. apply Nat.eqb_neq. simpl. lia.
  - intros pdf_path -> Herr.
    destruct (extract_total_on_errors lib pdf_path Herr) as [result Hr].
    exists result. split; [exact Hr|]. split; [|apply dumps_one_line].
    unfold main. simpl. now rewrite Hr.
Qed.

Lemma main_usage_and_exit_status_witness :
  main Demo.lib [lit "extract_pdf_text.py"] =
    Exit (usage_error_json ++ [10%N]) 1 /\
  main Demo.lib [lit "extract_pdf_text.py"; lit "a.pdf"; lit "b.pdf"] =
    Exit (usage_error_json ++ [10%N]) 1 /\
  exists result,
    extract_text_from_pdf Demo.lib (lit "missing.pdf") = Returned result /\
    main Demo.lib [lit "extract_pdf_text.py"; lit "missing.pdf"] =
      Exit (Json.dumps result ++ [10%N]) 0 /\
    ~ In 10%N (Json.dumps result).
Proof.
  split; [|split].
  - apply (main_usage_and_exit_status Demo.lib (lit "extract_pdf_text.py") []).
    simpl. lia.
  - apply (main_usage_and_exit_status Demo.lib (lit "extract_pdf_text.py")
             [lit "a.pdf"; lit "b.pdf"]).
    simpl. lia.
  - apply (main_usage_and_exit_status Demo.lib (lit "extract_pdf_text.py")
             [lit "missing.pdf"]); [reflexivity|].
    intros e Hf. apply extract_body_fault in Hf.
    vm_compute in Hf. injection Hf as <-. reflexivity.
Defined.

(** C5. For a document all of whose pages give empty or whitespace-only
    text, the result has empty text, length 0, success true, and pages
    equal to the page count of the document. *)
Theorem blank_pages_give_empty_text
    (lib : Library) (pdf_path : str) (reader : Reader) (ts : list str) :
  valid_pdf lib pdf_path reader ts ->
  (forall t, In t ts -> blank t = true) ->
  pages_len reader = Ok (List.length ts) /\
  field (extract_text_from_pdf lib pdf_path) "text" = Some (VStr []) /\
  field (extract_text_from_pdf lib pdf_path) "length" = Some (VInt 0) /\
  field (extract_text_from_pdf lib pdf_path) "success" = Some (VBool true) /\
  field (extract_text_from_pdf lib pdf_path) "pages" =
    Some (VInt (Z.of_nat (List.length ts))).
Proof.
  intros Hv Hb. rewrite (extract_valid _ _ _ _ Hv).
  unfold spec_text. rewrite (kept_all_blank ts Hb).
  destruct Hv as [_ [Hn _]]. repeat split. exact Hn.
Qed.

Lemma blank_pages_give_empty_text_witness :
  pages_len (Demo.reader_of [Ok (PStr (lit "  ")); Ok (PStr [])]) = Ok 2 /\
  field (extract_text_from_pdf Demo.lib (lit "blank.pdf")) "text" =
    Some (VStr []) /\
  field (extract_text_from_pdf Demo.lib (lit "blank.pdf")) "length" =
    Some (VInt 0) /\
  field (extract_text_from_pdf Demo.lib (lit "blank.pdf")) "success" =
    Some (VBool true) /\
  field (extract_text_from_pdf Demo.lib (lit "blank.pdf")) "pages" =
    Some (VInt 2).
Proof.
  apply (blank_pages_give_empty_text Demo.lib (lit "blank.pdf")
           (Demo.reader_of [Ok (PStr (lit "  ")); Ok (PStr [])])
           [lit "  "; []]).
  - split; [exists Demo.blank_pdf; split; reflexivity | split; reflexivity].
  - intros t [<- | [<- | []]]; reflexivity.
Defined.

(** C6. For a document of two pages that give the texts A and B, the text
    of the result is A, a blank line, B. *)
Theorem two_pages_A_B
    (lib : Library) (pdf_path : str) (reader : Reader) :
  valid_pdf lib pdf_path reader [lit "A"; lit "B"] ->
  field (extract_text_from_pdf lib pdf_path) "text" =
  Some (VStr (lit "A" ++ [10; 10]%N ++ lit "B")).
Proof.
  intros Hv. now rewrite (extract_valid _ _ _ _ Hv).
Qed.

Lemma two_pages_A_B_witness :
  field (extract_text_from_pdf Demo.lib (lit "ab.pdf")) "text" =
  Some (VStr [65; 10; 10; 66]%N).
Proof.
  apply (two_pages_A_B Demo.lib (lit "ab.pdf")
           (Demo.reader_of [Ok (PStr (lit "A")); Ok (PStr (lit "B"))])).
  split; [exists Demo.ab_pdf; split; reflexivity | split; reflexivity].
Defined.

(** C7. An error raised while opening, parsing or extracting is recovered
    inside the function and converted into the failure record; no error
    leaves the function as an exception. *)
Theorem no_error_leaves_extract
    (lib : Library) (pdf_path : str) (e : py_exc) :
  isinstance_Exception e = true ->
  extract_text_from_pdf lib pdf_path <> Propagated e /\
  (faults lib pdf_path e ->
   extract_text_from_pdf lib pdf_path =
   Returned [ (lit "success", VBool false);
              (lit "error", VStr (exc_str e));
              (lit "text", VStr []);
              (lit "pages", VInt 0);
              (lit "length", VInt 0) ] /\
   forall e', extract_text_from_pdf lib pdf_path <> Propagated e').
Proof.
  intros He. split.
  - intros H. apply extract_propagated_inv in H as [_ H]. congruence.
  - intros Hf. rewrite (extract_fault _ _ _ Hf He). split; [reflexivity|].
    intros e'. discriminate.
Qed.

Lemma no_error_leaves_extract_witness :
  isinstance_Exception Demo.PdfReadError = true /\
  faults Demo.lib (lit "notes.txt") Demo.PdfReadError /\
  extract_text_from_pdf Demo.lib (lit "notes.txt") =
  Returned [ (lit "success", VBool false);
             (lit "error", VStr (lit "EOF marker not found"));
             (lit "text", VStr []);
             (lit "pages", VInt 0);
             (lit "length", VInt 0) ].
Proof.
  assert (Hf : faults Demo.lib (lit "notes.txt") Demo.PdfReadError).
  { apply fault_parse with (file := Demo.Garbage); reflexivity. }
  split; [reflexivity|]. split; [exact Hf|].
  exact (proj1 (proj2 (no_error_leaves_extract Demo.lib (lit "notes.txt")
                         Demo.PdfReadError eq_refl) Hf)).
Defined.

(** C8. Two runs on one path, the library giving the same page count and
    the same page texts both times, give the same text, pages and length. *)
Theorem same_answers_same_result
    (lib1 lib2 : Library) (pdf_path : str) :
  same_answers lib1 lib2 pdf_path ->
  field (extract_text_from_pdf lib1 pdf_path) "text" =
    field (extract_text_from_pdf lib2 pdf_path) "text" /\
  field (extract_text_from_pdf lib1 pdf_path) "pages" =
    field (extract_text_from_pdf lib2 pdf_path) "pages" /\
  field (extract_text_from_pdf lib1 pdf_path) "length" =
    field (extract_text_from_pdf lib2 pdf_path) "length".
Proof.
  intros H. now rewrite (extract_same_answers lib1 lib2 pdf_path H).
Qed.

Lemma same_answers_same_result_witness :
  same_answers Demo.lib
    (Demo.library [(lit "mixed.pdf", Demo.mixed_pdf)]) (lit "mixed.pdf") /\
  field (extract_text_from_pdf Demo.lib (lit "mixed.pdf")) "text" =
    field (extract_text_from_pdf
             (Demo.library [(lit "mixed.pdf", Demo.mixed_pdf)])
             (lit "mixed.pdf")) "text".
Proof.
  assert (H : same_answers Demo.lib
                (Demo.library [(lit "mixed.pdf", Demo.mixed_pdf)])
                (lit "mixed.pdf")).
  { split; [reflexivity|]. intros total_pages Hn. reflexivity. }
  split; [exact H|].
  exact (proj1 (same_answers_same_result _ _ _ H)).
Defined.

(** C9. The record of a successful extraction has exactly the keys
    success, text, pages and length: there is no error key, not even one
    with an empty value. *)
Theorem success_record_has_no_error_key
    (lib : Library) (pdf_path : str) (result : dict) :
  extract_text_from_pdf lib pdf_path = Returned result ->
  get result (lit "success") = Some (VBool true) ->
  keys result = [lit "success"; lit "text"; lit "pages"; lit "length"] /\
  get result (lit "error") = None.
Proof.
  intros Hr Hs.
  destruct (extract_returned_inv lib pdf_path result Hr)
    as [[reader [ts [_ ->]]] | [e [_ [_ ->]]]].
  - split; reflexivity.
  - discriminate.
Qed.

Lemma success_record_has_no_error_key_witness :
  extract_text_from_pdf Demo.lib (lit "ab.pdf") =
    Returned (success_dict (lit "A" ++ newline2 ++ lit "B") 2) /\
  keys (success_dict (lit "A" ++ newline2 ++ lit "B") 2) =
    [lit "success"; lit "text"; lit "pages"; lit "length"] /\
  get (success_dict (lit "A" ++ newline2 ++ lit "B") 2) (lit "error") = None.
Proof.
  split; [reflexivity|].
  apply (success_record_has_no_error_key Demo.lib (lit "ab.pdf"));
    reflexivity.
Defined.

(** C10. When the library gives no string for a page, the call does not
    crash: the fault of trimming it is caught and the call returns the
    failure record, with the message of that fault. *)
Theorem none_page_text_gives_failure_record
    (lib : Library) (pdf_path : str) (reader : Reader)
    (total_pages : nat) (ts : list str) :
  loads lib pdf_path reader ->
  pages_len reader = Ok total_pages ->
  List.length ts < total_pages ->
  pages_yield reader 0 ts ->
  page_text_at reader (List.length ts) = Ok PNone ->
  extract_text_from_pdf lib pdf_path =
  Returned [ (lit "success", VBool false);
             (lit "error",
              VStr (lit "'NoneType' object has no attribute 'strip'"));
             (lit "text", VStr []);
             (lit "pages", VInt 0);
             (lit "length", VInt 0) ].
Proof.
  intros Hl Hn Hlt Hy Hnone.
  assert (Hf : faults lib pdf_path AttributeError_strip).
  { apply fault_page with reader total_pages ts; try assumption.
    now apply fault_no_string. }
  now rewrite (extract_fault _ _ _ Hf eq_refl).
Qed.

Lemma none_page_text_gives_failure_record_witness :
  field (extract_text_from_pdf Demo.lib (lit "none.pdf")) "success" =
    Some (VBool false) /\
  field (extract_text_from_pdf Demo.lib (lit "none.pdf")) "text" =
    Some (VStr []).
Proof.
  rewrite (none_page_text_gives_failure_record Demo.lib (lit "none.pdf")
             (Demo.reader_of [Ok (PStr (lit "A")); Ok PNone]) 2 [lit "A"]).
  - split; reflexivity.
  - exists Demo.none_pdf. split; reflexivity.
  - reflexivity.
  - simpl. lia.
  - reflexivity.
  - reflexivity.
Defined.

(** * Further properties of trimming and joining *)

Section Trimming.

(** What [lstrip] drops is a blank prefix. *)
Lemma lstrip_split (s : str) :
  exists w, s = w ++ lstrip s /\ blank w = true.
Proof.
  induction s as [|c s [w [Hs Hw]]]; [now exists []|].
  simpl. destruct (isspace c) eqn:E.
  - exists (c :: w). simpl. rewrite E, Hw. split; [now f_equal | reflexivity].
  - now exists [].
Qed.

(** What [rstrip] drops is a blank suffix. *)
Lemma rstrip_split (s : str) :
  exists w, s = rstrip s ++ w /\ blank w = true.
Proof.
  unfold rstrip. destruct (lstrip_split (rev s)) as [w [Hs Hw]].
  exists (rev w). split; [|now rewrite blank_rev].
  apply (f_equal (@rev N)) in Hs.
  now rewrite rev_involutive, rev_app_distr in Hs.
Qed.

Lemma strip_split (s : str) :
  exists a b, s = a ++ strip s ++ b /\ blank a = true /\ blank b = true.
Proof.
  destruct (lstrip_split s) as [a [Ha Hba]].
  destruct (rstrip_split (lstrip s)) as [b [Hb Hbb]].
  exists a, b. unfold strip. now rewrite <- Hb.
Qed.

Lemma head_space_lstrip (s : str) : head_space (lstrip s) = false.
Proof.
  induction s as [|c s IH]; [reflexivity|].
  simpl. destruct (isspace c) eqn:E; [exact IH | exact E].
Qed.

Lemma lstrip_id (s : str) : head_space s = false -> lstrip s = s.
Proof. destruct s as [|c s]; simpl; [reflexivity | now intros ->]. Qed.

Lemma last_space_rstrip (s : str) : last_space (rstrip s) = false.
Proof.
  unfold last_space, rstrip. rewrite rev_involutive. apply head_space_lstrip.
Qed.

Lemma rstrip_id (s : str) : last_space s = false -> rstrip s = s.
Proof.
  unfold last_space, rstrip. intros H. rewrite (lstrip_id _ H).
  apply rev_involutive.
Qed.

Lemma head_space_app (a b : str) :
  a <> [] -> head_space (a ++ b) = head_space a.
Proof. destruct a; [congruence | reflexivity]. Qed.

Lemma last_space_app (a b : str) :
  b <> [] -> last_space (a ++ b) = last_space b.
Proof.
  intros Hb. unfold last_space. rewrite rev_app_distr.
  apply head_space_app. intros H. apply Hb.
  apply (f_equal (@rev N)) in H. now rewrite rev_involutive in H.
Qed.

Lemma head_space_rstrip (s : str) :
  head_space s = false -> head_space (rstrip s) = false.
Proof.
  intros Hs. destruct (rstrip_split s) as [w [H _]].
  destruct (rstrip s) as [|c r] eqn:E; [reflexivity|].
  rewrite H in Hs. exact Hs.
Qed.

Lemma head_space_strip (s : str) : head_space (strip s) = false.
Proof. apply head_space_rstrip, head_space_lstrip. Qed.

Lemma last_space_strip (s : str) : last_space (strip s) = false.
Proof. apply last_space_rstrip. Qed.

(** A string with no whitespace at either end is left as it is. *)
Lemma strip_id (s : str) :
  head_space s = false -> last_space s = false -> strip s = s.
Proof.
  intros Hh Hl. unfold strip. rewrite (lstrip_id _ Hh). now apply rstrip_id.
Qed.

Lemma strip_strip (s : str) : strip (strip s) = strip s.
Proof. apply strip_id; [apply head_space_strip | apply last_space_strip]. Qed.

Lemma strip_nil_blank (s : str) : strip s = [] <-> blank s = true.
Proof.
  split; [|apply strip_blank].
  intros H. pose proof (truthy_strip s) as Ht. rewrite H in Ht. simpl in Ht.
  now destruct (blank s).
Qed.

Lemma nonblank_nonempty (s : str) : blank s = false -> s <> [].
Proof. now intros H ->. Qed.

(** A non-empty [m] with no whitespace in front survives [lstrip] of
    anything around it, and likewise at the other end. *)
Lemma lstrip_keeps (u m v : str) :
  m <> [] -> head_space m = false ->
  exists u', lstrip (u ++ m ++ v) = u' ++ m ++ v.
Proof.
  intros Hm Hh. induction u as [|c u [u' IH]].
  - exists []. simpl. apply lstrip_id. now rewrite head_space_app.
  - simpl. destruct (isspace c); [now exists u' | now exists (c :: u)].
Qed.

Lemma rstrip_keeps (u m v : str) :
  m <> [] -> last_space m = false ->
  exists v', rstrip (u ++ m ++ v) = u ++ m ++ v'.
Proof.
  intros Hm Hl. unfold rstrip.
  rewrite !rev_app_distr, <- app_assoc.
  destruct (lstrip_keeps (rev v) (rev m) (rev u)) as [v' Hv'].
  - intros H. apply Hm. apply (f_equal (@rev N)) in H.
    now rewrite rev_involutive in H.
  - exact Hl.
  - exists (rev v'). rewrite Hv', !rev_app_distr, !rev_involutive.
    now rewrite <- app_assoc.
Qed.

Lemma strip_keeps (u m v : str) :
  m <> [] -> head_space m = false -> last_space m = false ->
  exists u' v', strip (u ++ m ++ v) = u' ++ m ++ v'.
Proof.
  intros Hm Hh Hl. unfold strip.
  destruct (lstrip_keeps u m v Hm Hh) as [u' ->].
  destruct (rstrip_keeps u' m v Hm Hl) as [v' ->].
  now exists u', v'.
Qed.

Lemma in_strip (c : N) (s : str) : In c (strip s) -> In c s.
Proof.
  intros H. destruct (strip_split s) as [a [b [Hs _]]]. rewrite Hs.
  apply in_or_app. right. apply in_or_app. now left.
Qed.

Lemma join_cons2 (sep p q : str) (l : list str) :
  join sep (p :: q :: l) = p ++ sep ++ join sep (q :: l).
Proof. reflexivity. Qed.

Lemma in_join (c : N) (sep : str) (l : list str) :
  In c (join sep l) -> In c sep \/ exists t, In t l /\ In c t.
Proof.
  induction l as [|p l IH]; [intros []|].
  destruct l as [|q l].
  - intros H. right. exists p. split; [now left | exact H].
  - rewrite join_cons2. intros H.
    apply in_app_or in H as [H | H];
      [right; exists p; split; [now left | exact H]|].
    apply in_app_or in H as [H | H]; [now left|].
    destruct (IH H) as [Hs | [t [Ht Hc]]]; [now left|].
    right. exists t. split; [now right | exact Hc].
Qed.

Lemma join_split (sep t : str) (l : list str) :
  In t l -> exists u v, join sep l = u ++ t ++ v.
Proof.
  induction l as [|p l IH]; [intros []|].
  intros [-> | H].
  - destruct l as [|q l].
    + exists [], []. simpl. now rewrite app_nil_r.
    + exists [], (sep ++ join sep (q :: l)). reflexivity.
  - destruct l as [|q l]; [destruct H|].
    destruct (IH H) as [u [v Huv]].
    exists (p ++ sep ++ u), v. rewrite join_cons2, Huv.
    now rewrite <- !app_assoc.
Qed.

Lemma join_head (sep p : str) (l : list str) :
  p <> [] -> head_space (join sep (p :: l)) = head_space p.
Proof.
  intros Hp. destruct l as [|q l]; [reflexivity|].
  rewrite join_cons2. now apply head_space_app.
Qed.

Lemma join_last (sep : str) (l : list str) :
  (forall t, In t l -> t <> [] /\ last_space t = false) ->
  last_space (join sep l) = false.
Proof.
  induction l as [|p l IH]; intros H; [reflexivity|].
  destruct l as [|q l].
  - apply H. now left.
  - rewrite join_cons2, app_assoc.
    assert (Hq : forall t, In t (q :: l) -> t <> [] /\ last_space t = false)
      by (intros t Ht; apply H; now right).
    rewrite last_space_app; [now apply IH|].
    intros Hj. destruct (join_split sep q (q :: l) (or_introl eq_refl))
      as [u [v Huv]].
    rewrite Hj in Huv. symmetry in Huv.
    apply app_eq_nil in Huv as [_ Huv]. apply app_eq_nil in Huv as [Huv _].
    now apply (proj1 (Hq q (or_introl eq_refl))).
Qed.

Lemma in_kept (t : str) (ts : list str) :
  In t (kept ts) <-> In t ts /\ blank t = false.
Proof.
  unfold kept. rewrite filter_In, truthy_strip.
  now destruct (blank t).
Qed.

Lemma kept_nil_blank (ts : list str) :
  kept ts = [] -> forall t, In t ts -> blank t = true.
Proof.
  intros H t Ht. destruct (blank t) eqn:E; [reflexivity|].
  assert (Hk : In t (kept ts)) by now apply in_kept.
  rewrite H in Hk. destruct Hk.
Qed.

(** The text of the specification is empty exactly when no page is kept. *)
Lemma spec_text_nil (ts : list str) :
  spec_text ts = [] <-> forall t, In t ts -> blank t = true.
Proof.
  split.
  - unfold spec_text. intros H. apply kept_nil_blank.
    destruct (kept ts) as [|t l] eqn:E; [reflexivity|].
    apply strip_nil_blank in H.
    assert (Ht : blank t = false)
      by (apply (in_kept t ts); rewrite E; now left).
    destruct (join_split newline2 t (t :: l) (or_introl eq_refl))
      as [u [v Huv]].
    rewrite Huv, !blank_app, Ht, andb_false_r in H. discriminate.
  - intros H. unfold spec_text. now rewrite (kept_all_blank ts H).
Qed.

End Trimming.

(** * Further properties of the script *)

(** X1. The text of every returned record, success or failure, is already
    trimmed: it neither begins nor ends with a whitespace character, and
    trimming it again changes nothing. *)
Theorem result_text_is_trimmed
    (lib : Library) (pdf_path : str) (result : dict) :
  extract_text_from_pdf lib pdf_path = Returned result ->
  exists text,
    get result (lit "text") = Some (VStr text) /\
    head_space text = false /\ last_space text = false /\
    strip text = text.
Proof.
  intros Hr.
  destruct (extract_returned_inv lib pdf_path result Hr)
    as [[reader [ts [_ ->]]] | [e [_ [_ ->]]]].
  - exists (spec_text ts). split; [reflexivity|]. unfold spec_text.
    split; [apply head_space_strip|]. split; [apply last_space_strip|].
    apply strip_strip.
  - exists []. repeat split.
Qed.

Lemma result_text_is_trimmed_witness :
  extract_text_from_pdf Demo.lib (lit "mixed.pdf") =
    Returned (success_dict (lit "A " ++ newline2 ++ lit "B") 3) /\
  exists text,
    get (success_dict (lit "A " ++ newline2 ++ lit "B") 3) (lit "text") =
      Some (VStr text) /\
    head_space text = false /\ last_space text = false /\
    strip text = text.
Proof.
  split; [reflexivity|].
  apply (result_text_is_trimmed Demo.lib (lit "mixed.pdf")). reflexivity.
Defined.

(** X2. For a valid document the reported length is 0 exactly when every
    page is empty or whitespace-only: one page with a character that is
    not whitespace makes the text non-empty. *)
Theorem length_zero_iff_all_pages_blank
    (lib : Library) (pdf_path : str) (reader : Reader) (ts : list str) :
  valid_pdf lib pdf_path reader ts ->
  (field (extract_text_from_pdf lib pdf_path) "length" = Some (VInt 0) <->
   forall t, In t ts -> blank t = true).
Proof.
  intros Hv. rewrite (extract_valid _ _ _ _ Hv), <- spec_text_nil.
  change (field (Returned (success_dict (spec_text ts) (List.length ts)))
            "length")
    with (Some (VInt (len (spec_text ts)))).
  unfold len. split.
  - intros H. injection H as H. destruct (spec_text ts); [reflexivity|].
    simpl in H. lia.
  - now intros ->.
Qed.

Lemma length_zero_iff_all_pages_blank_witness :
  (field (extract_text_from_pdf Demo.lib (lit "mixed.pdf")) "length" =
     Some (VInt 0) <->
   forall t, In t [lit " A "; lit " "; lit "B"] -> blank t = true).
Proof.
  apply (length_zero_iff_all_pages_blank Demo.lib (lit "mixed.pdf")
           (Demo.reader_of [Ok (PStr (lit " A ")); Ok (PStr (lit " "));
                            Ok (PStr (lit "B"))])).
  split; [exists Demo.mixed_pdf; split; reflexivity | split; reflexivity].
Defined.

(** X3. When every page that has text gives it already trimmed, the final
    trim removes nothing but the last separator: the text is exactly the
    kept page texts with one blank line between them. *)
Theorem trimmed_pages_are_joined_exactly
    (lib : Library) (pdf_path : str) (reader : Reader) (ts : list str) :
  valid_pdf lib pdf_path reader ts ->
  (forall t, In t ts -> blank t = false -> strip t = t) ->
  field (extract_text_from_pdf lib pdf_path) "text" =
  Some (VStr (join [10; 10]%N (filter (fun t => truthy (strip t)) ts))).
Proof.
  intros Hv Hc. change [10; 10]%N with newline2.
  change (filter (fun t => truthy (strip t)) ts) with (kept ts). rewrite (extract_valid _ _ _ _ Hv).
  change (field (Returned (success_dict (spec_text ts) (List.length ts)))
            "text")
    with (Some (VStr (spec_text ts))).
  do 2 f_equal. unfold spec_text.
  assert (Hk : forall t, In t (kept ts) ->
                 t <> [] /\ head_space t = false /\ last_space t = false).
  { intros t Ht. apply in_kept in Ht as [Hin Hb].
    split; [now apply nonblank_nonempty|].
    rewrite <- (Hc t Hin Hb).
    split; [apply head_space_strip | apply last_space_strip]. }
  destruct (kept ts) as [|p l] eqn:E; [reflexivity|].
  apply strip_id.
  - destruct (Hk p (or_introl eq_refl)) as [Hp [Hh _]].
    now rewrite join_head.
  - apply join_last. intros t Ht. destruct (Hk t Ht) as [Hne [_ Hl]].
    now split.
Qed.

Lemma trimmed_pages_are_joined_exactly_witness :
  field (extract_text_from_pdf Demo.lib (lit "ab.pdf")) "text" =
  Some (VStr [65; 10; 10; 66]%N).
Proof.
  apply (trimmed_pages_are_joined_exactly Demo.lib (lit "ab.pdf")
           (Demo.reader_of [Ok (PStr (lit "A")); Ok (PStr (lit "B"))])
           [lit "A"; lit "B"]).
  - split; [exists Demo.ab_pdf; split; reflexivity | split; reflexivity].
  - intros t [<- | [<- | []]] _; reflexivity.
Defined.

(** X4. Every record the function returns, on either path, has the keys
    success, text, pages and length, with length equal to the number of
    characters of text and pages a count; the error key is there exactly
    when success is false, and then text is empty and pages is 0. *)
Theorem returned_record_shape
    (lib : Library) (pdf_path : str) (result : dict) :
  extract_text_from_pdf lib pdf_path = Returned result ->
  exists (success : bool) (text : str) (pages : nat),
    get result (lit "success") = Some (VBool success) /\
    get result (lit "text") = Some (VStr text) /\
    get result (lit "pages") = Some (VInt (Z.of_nat pages)) /\
    get result (lit "length") = Some (VInt (len text)) /\
    (get result (lit "error") = None <-> success = true) /\
    (success = false -> text = [] /\ pages = 0).
Proof.
  intros Hr.
  destruct (extract_returned_inv lib pdf_path result Hr)
    as [[reader [ts [_ ->]]] | [e [_ [_ ->]]]].
  - exists true, (spec_text ts), (List.length ts).
    repeat split; try reflexivity; discriminate.
  - exists false, [], 0. repeat split; try reflexivity; discriminate.
Qed.

Lemma returned_record_shape_witness :
  extract_text_from_pdf Demo.lib (lit "none.pdf") =
    Returned (failure_dict (exc_str AttributeError_strip)) /\
  exists (success : bool) (text : str) (pages : nat),
    get (failure_dict (exc_str AttributeError_strip)) (lit "success") =
      Some (VBool success) /\
    get (failure_dict (exc_str AttributeError_strip)) (lit "text") =
      Some (VStr text) /\
    get (failure_dict (exc_str AttributeError_strip)) (lit "pages") =
      Some (VInt (Z.of_nat pages)) /\
    get (failure_dict (exc_str AttributeError_strip)) (lit "length") =
      Some (VInt (len text)) /\
    (get (failure_dict (exc_str AttributeError_strip)) (lit "error") = None
     <-> success = true) /\
    (success = false -> text = [] /\ pages = 0).
Proof.
  split; [reflexivity|].
  apply (returned_record_shape Demo.lib (lit "none.pdf")). reflexivity.
Defined.

(** X5. The handler is [except Exception]: an exception that is not an
    instance of [Exception], raised at any stage, is not converted into a
    record.  It leaves the function, and the script ends on it without
    having printed anything. *)
Theorem non_exception_is_not_caught
    (lib : Library) (prog pdf_path : str) (e : py_exc) :
  faults lib pdf_path e ->
  isinstance_Exception e = false ->
  extract_text_from_pdf lib pdf_path = Propagated e /\
  main lib [prog; pdf_path] = Uncaught [] e.
Proof.
  intros Hf He.
  assert (Hx : extract_text_from_pdf lib pdf_path = Propagated e)
    by now apply extract_not_caught.
  split; [exact Hx|]. unfold main. simpl. now rewrite Hx.
Qed.

Lemma non_exception_is_not_caught_witness :
  faults Demo.lib (lit "interrupted.pdf") Demo.KeyboardInterrupt /\
  isinstance_Exception Demo.KeyboardInterrupt = false /\
  main Demo.lib [lit "extract_pdf_text.py"; lit "interrupted.pdf"] =
    Uncaught [] Demo.KeyboardInterrupt.
Proof.
  assert (Hf : faults Demo.lib (lit "interrupted.pdf") Demo.KeyboardInterrupt).
  { apply fault_page
      with (reader := Demo.reader_of
                        [Ok (PStr (lit "A")); Raise Demo.KeyboardInterrupt])
           (total_pages := 2) (ts := [lit "A"]).
    - exists Demo.interrupted_pdf. split; reflexivity.
    - reflexivity.
    - simpl. lia.
    - reflexivity.
    - apply fault_raised. reflexivity. }
  split; [exact Hf|]. split; [reflexivity|].
  exact (proj2 (non_exception_is_not_caught Demo.lib
                  (lit "extract_pdf_text.py") (lit "interrupted.pdf")
                  Demo.KeyboardInterrupt Hf eq_refl)).
Defined.

(** X6. Whenever the script exits, for any [sys.argv] at all, the status
    is 0 or 1, it is 1 exactly when [len(sys.argv)] is not 2, and standard
    output holds exactly one line: printable ASCII characters followed by
    one line feed, whatever characters the text or the message contain. *)
Theorem exit_status_and_one_ascii_line
    (lib : Library) (argv : list str) (stdout : str) (status : Z) :
  main lib argv = Exit stdout status ->
  (status = 0%Z \/ status = 1%Z) /\
  (status = 1%Z <-> List.length argv <> 2) /\
  exists line,
    stdout = line ++ [10%N] /\ forallb printable line = true.
Proof.
  unfold main. destruct (Nat.eqb_spec (List.length argv) 2) as [Hn | Hn];
    simpl negb; cbv iota.
  - destruct (extract_text_from_pdf lib (nth 1 argv [])) as [result|e];
      [|discriminate].
    intros H. injection H as <- <-. split; [now left|].
    split; [split; [discriminate | congruence]|].
    exists (Json.dumps result). split; [reflexivity | apply dumps_printable].
  - intros H. injection H as <- <-. split; [now right|].
    split; [now split|].
    exists (Json.dumps usage_dict). split; [reflexivity | apply dumps_printable].
Qed.

Lemma exit_status_and_one_ascii_line_witness :
  main Demo.lib [lit "extract_pdf_text.py"; lit "mixed.pdf"] =
    Exit (Json.dumps (success_dict (lit "A " ++ newline2 ++ lit "B") 3)
          ++ [10%N]) 0 /\
  (0%Z = 1%Z <->
   List.length [lit "extract_pdf_text.py"; lit "mixed.pdf"] <> 2).
Proof.
  split; [reflexivity|].
  apply (exit_status_and_one_ascii_line Demo.lib
           [lit "extract_pdf_text.py"; lit "mixed.pdf"]
           (Json.dumps (success_dict (lit "A " ++ newline2 ++ lit "B") 3)
            ++ [10%N]) 0).
  reflexivity.
Defined.

(** X7. The loop ends at the first page that faults: pages after it are
    never asked for.  Two documents with the same page count that agree up
    to and including a page that faults give the same outcome, however
    their later pages differ. *)
Theorem nothing_is_read_after_a_fault
    (lib1 lib2 : Library) (pdf_path : str) (r1 r2 : Reader)
    (total_pages : nat) (ts : list str) (e : py_exc) :
  loads lib1 pdf_path r1 -> loads lib2 pdf_path r2 ->
  pages_len r1 = Ok total_pages -> pages_len r2 = Ok total_pages ->
  List.length ts < total_pages ->
  pages_yield r1 0 ts -> pages_yield r2 0 ts ->
  page_fault r1 (List.length ts) e -> page_fault r2 (List.length ts) e ->
  extract_text_from_pdf lib1 pdf_path = extract_text_from_pdf lib2 pdf_path.
Proof.
  intros Hl1 Hl2 Hn1 Hn2 Hlt Hy1 Hy2 Hf1 Hf2.
  unfold extract_text_from_pdf.
  rewrite (extract_body_fault lib1 pdf_path e
             (fault_page _ _ _ r1 total_pages ts Hl1 Hn1 Hlt Hy1 Hf1)).
  rewrite (extract_body_fault lib2 pdf_path e
             (fault_page _ _ _ r2 total_pages ts Hl2 Hn2 Hlt Hy2 Hf2)).
  reflexivity.
Qed.

Lemma nothing_is_read_after_a_fault_witness :
  extract_text_from_pdf Demo.lib (lit "broken.pdf") =
  extract_text_from_pdf
    (Demo.library
       [(lit "broken.pdf",
         Demo.Pdf [Ok (PStr (lit "A")); Raise Demo.PdfReadError; Ok PNone])])
    (lit "broken.pdf").
Proof.
  apply (nothing_is_read_after_a_fault Demo.lib
           (Demo.library
              [(lit "broken.pdf",
                Demo.Pdf [Ok (PStr (lit "A")); Raise Demo.PdfReadError;
                          Ok PNone])])
           (lit "broken.pdf")
           (Demo.reader_of [Ok (PStr (lit "A")); Raise Demo.PdfReadError;
                            Ok (PStr (lit "B"))])
           (Demo.reader_of [Ok (PStr (lit "A")); Raise Demo.PdfReadError;
                            Ok PNone])
           3 [lit "A"] Demo.PdfReadError).
  - exists Demo.broken_pdf. split; reflexivity.
  - exists (Demo.Pdf [Ok (PStr (lit "A")); Raise Demo.PdfReadError; Ok PNone]).
    split; reflexivity.
  - reflexivity.
  - reflexivity.
  - simpl. lia.
  - reflexivity.
  - reflexivity.
  - apply fault_raised. reflexivity.
  - apply fault_raised. reflexivity.
Defined.

(** X8. The function invents no character: each character of the text of
    a valid document is a line feed of a separator or occurs in the text
    of a page that is not blank. *)
Theorem text_characters_come_from_pages
    (lib : Library) (pdf_path : str) (reader : Reader) (ts : list str)
    (text : str) (c : N) :
  valid_pdf lib pdf_path reader ts ->
  field (extract_text_from_pdf lib pdf_path) "text" = Some (VStr text) ->
  In c text ->
  c = 10%N \/ exists t, In t ts /\ blank t = false /\ In c t.
Proof.
  intros Hv Ht Hc. rewrite (extract_valid _ _ _ _ Hv) in Ht.
  change (Some (VStr (spec_text ts)) = Some (VStr text)) in Ht.
  injection Ht as <-. unfold spec_text in Hc.
  apply in_strip, in_join in Hc as [Hc | [t [Hk Hc]]].
  - left. destruct Hc as [<- | [<- | []]]; reflexivity.
  - right. exists t. apply in_kept in Hk as [Hin Hb]. now repeat split.
Qed.

Lemma text_characters_come_from_pages_witness :
  field (extract_text_from_pdf Demo.lib (lit "ab.pdf")) "text" =
    Some (VStr [65; 10; 10; 66]%N) /\
  In 66%N [65; 10; 10; 66]%N /\
  (66%N = 10%N \/
   exists t, In t [lit "A"; lit "B"] /\ blank t = false /\ In 66%N t).
Proof.
  split; [reflexivity|]. split; [simpl; tauto|].
  apply (text_characters_come_from_pages Demo.lib (lit "ab.pdf")
           (Demo.reader_of [Ok (PStr (lit "A")); Ok (PStr (lit "B"))])
           [lit "A"; lit "B"] [65; 10; 10; 66]%N 66%N).
  - split; [exists Demo.ab_pdf; split; reflexivity | split; reflexivity].
  - reflexivity.
  - simpl. tauto.
Defined.

(** X9. No page with text is lost or cut inside: for every page of a valid
    document whose text is not blank, that text, trimmed, occurs whole and
    contiguous in the text of the result. *)
Theorem kept_page_occurs_in_text
    (lib : Library) (pdf_path : str) (reader : Reader) (ts : list str)
    (t : str) :
  valid_pdf lib pdf_path reader ts ->
  In t ts -> blank t = false ->
  exists before after,
    field (extract_text_from_pdf lib pdf_path) "text" =
    Some (VStr (before ++ strip t ++ after)).
Proof.
  intros Hv Hin Hb. rewrite (extract_valid _ _ _ _ Hv).
  assert (Hk : In t (kept ts)) by now apply in_kept.
  destruct (join_split newline2 t (kept ts) Hk) as [u [v Huv]].
  destruct (strip_split t) as [a [b [Ht _]]].
  assert (Hm : strip t <> []).
  { intros H. apply strip_nil_blank in H. congruence. }
  destruct (strip_keeps (u ++ a) (strip t) (b ++ v) Hm
              (head_space_strip t) (last_space_strip t))
    as [before [after Hs]].
  exists before, after.
  change (field (Returned (success_dict (spec_text ts) (List.length ts)))
            "text")
    with (Some (VStr (spec_text ts))).
  do 2 f_equal. unfold spec_text. rewrite <- Hs, Huv.
  f_equal. rewrite Ht at 1. now rewrite <- !app_assoc.
Qed.

Lemma kept_page_occurs_in_text_witness :
  exists before after,
    field (extract_text_from_pdf Demo.lib (lit "mixed.pdf")) "text" =
    Some (VStr (before ++ strip (lit " A ") ++ after)).
Proof.
  apply (kept_page_occurs_in_text Demo.lib (lit "mixed.pdf")
           (Demo.reader_of [Ok (PStr (lit " A ")); Ok (PStr (lit " "));
                            Ok (PStr (lit "B"))])
           [lit " A "; lit " "; lit "B"] (lit " A ")).
  - split; [exists Demo.mixed_pdf; split; reflexivity | split; reflexivity].
  - simpl. now left.
  - reflexivity.
Defined.

Section PageOrder.

Lemma join_cons_flat (sep t : str) (r : list str) :
  join sep (t :: r) = t ++ flat_map (fun x => sep ++ x) r.
Proof.
  revert t. induction r as [|q r IH]; intros t.
  - simpl. now rewrite app_nil_r.
  - rewrite join_cons2, IH. simpl. now rewrite <- app_assoc.
Qed.

(** [join] around one element: what comes before it, each with its
    separator, then the element, then what follows, each after one. *)
Lemma join_app_cons (sep t : str) (l r : list str) :
  join sep (l ++ t :: r) =
  flat_map (fun x => x ++ sep) l ++ t ++ flat_map (fun x => sep ++ x) r.
Proof.
  induction l as [|p l IH]; [apply join_cons_flat|].
  simpl. destruct (l ++ t :: r) as [|q rest] eqn:E.
  - now destruct l.
  - rewrite IH. now rewrite <- !app_assoc.
Qed.

Lemma kept_app (a b : list str) : kept (a ++ b) = kept a ++ kept b.
Proof. apply filter_app. Qed.

Lemma kept_cons_nonblank (t : str) (l : list str) :
  blank t = false -> kept (t :: l) = t :: kept l.
Proof. intros H. unfold kept. simpl. now rewrite truthy_strip, H. Qed.

Lemma spec_text_two (l1 l2 l3 : list str) (ti tj : str) :
  blank ti = false -> blank tj = false ->
  exists before x y after,
    spec_text (l1 ++ ti :: l2 ++ tj :: l3) =
    before ++ strip ti ++ (x ++ newline2 ++ y) ++ strip tj ++ after.
Proof.
  intros Hi Hj. unfold spec_text.
  rewrite kept_app, (kept_cons_nonblank ti _ Hi), kept_app,
    (kept_cons_nonblank tj _ Hj).
  rewrite join_app_cons, flat_map_app. cbn [flat_map].
  destruct (strip_split ti) as [a [b [Hti _]]].
  destruct (strip_split tj) as [a' [b' [Htj _]]].
  assert (Hmi : strip ti <> [])
    by (intros H; apply strip_nil_blank in H; congruence).
  assert (Hmj : strip tj <> [])
    by (intros H; apply strip_nil_blank in H; congruence).
  pose proof (head_space_strip ti) as Hhi.
  pose proof (last_space_strip tj) as Hlj.
  set (P := flat_map (fun x => x ++ newline2) (kept l1)).
  set (S2 := flat_map (fun x => newline2 ++ x) (kept l2)).
  set (S3 := flat_map (fun x => newline2 ++ x) (kept l3)).
  set (M := strip ti ++ ((b ++ S2) ++ newline2 ++ a') ++ strip tj).
  assert (HM : M <> []).
  { unfold M. intros H. apply app_eq_nil in H as [H _]. now apply Hmi. }
  assert (HhM : head_space M = false)
    by (unfold M; now rewrite head_space_app).
  assert (HlM : last_space M = false).
  { unfold M. rewrite app_assoc. now rewrite last_space_app. }
  destruct (strip_keeps (P ++ a) M (b' ++ S3) HM HhM HlM)
    as [before [after Hs]].
  exists before, (b ++ S2), a', after.
  assert (E : P ++ ti ++ S2 ++ (newline2 ++ tj) ++ S3 =
              (P ++ a) ++ M ++ b' ++ S3).
  { unfold M. rewrite Hti at 1. rewrite Htj at 1. now rewrite <- !app_assoc. }
  change (strip (P ++ ti ++ S2 ++ (newline2 ++ tj) ++ S3) =
          before ++ strip ti ++ ((b ++ S2) ++ newline2 ++ a')
          ++ strip tj ++ after).
  rewrite E, Hs. unfold M. now rewrite <- !app_assoc.
Qed.

End PageOrder.

(** X10. Page order is kept: when a page with text comes before another
    page with text, the trimmed text of the first occurs in the result
    before the trimmed text of the second, with a blank-line separator
    between the two, whatever pages lie before, between and after them. *)
Theorem page_order_is_preserved
    (lib : Library) (pdf_path : str) (reader : Reader)
    (l1 l2 l3 : list str) (ti tj : str) :
  valid_pdf lib pdf_path reader (l1 ++ ti :: l2 ++ tj :: l3) ->
  blank ti = false -> blank tj = false ->
  exists before x y after,
    field (extract_text_from_pdf lib pdf_path) "text" =
    Some (VStr (before ++ strip ti ++ (x ++ [10; 10]%N ++ y)
                ++ strip tj ++ after)).
Proof.
  intros Hv Hi Hj. change [10; 10]%N with newline2. rewrite (extract_valid _ _ _ _ Hv).
  destruct (spec_text_two l1 l2 l3 ti tj Hi Hj)
    as [before [x [y [after Hs]]]].
  exists before, x, y, after.
  change (field (Returned (success_dict
                   (spec_text (l1 ++ ti :: l2 ++ tj :: l3))
                   (List.length (l1 ++ ti :: l2 ++ tj :: l3)))) "text")
    with (Some (VStr (spec_text (l1 ++ ti :: l2 ++ tj :: l3)))).
  now rewrite Hs.
Qed.

Lemma page_order_is_preserved_witness :
  exists before x y after,
    field (extract_text_from_pdf Demo.lib (lit "mixed.pdf")) "text" =
    Some (VStr (before ++ strip (lit " A ") ++ (x ++ [10; 10]%N ++ y)
                ++ strip (lit "B") ++ after)).
Proof.
  apply (page_order_is_preserved Demo.lib (lit "mixed.pdf")
           (Demo.reader_of [Ok (PStr (lit " A ")); Ok (PStr (lit " "));
                            Ok (PStr (lit "B"))])
           [] [lit " "] [] (lit " A ") (lit "B")).
  - split; [exists Demo.mixed_pdf; split; reflexivity | split; reflexivity].
  - reflexivity.
  - reflexivity.
Defined.
